(** * Pokagotchi: the pet-state store and the scoring engine of [src/server.py]

    A shallow embedding of the MCP server's core: the JSON-backed state
    store ([load_pet_state], [save_pet_state]), the scoring function
    ([calculate_pet_stats]), the presentation helpers and the three tools
    ([check_pet_status], [update_pet_from_email_data], [get_pet_advice]).

    Modelling conventions.
    - Python [int] is [Z].  A Python [float] argument is a [pyfloat]: a
      rational, an infinity or NaN; the code only asks whether it is
      below 4.
    - The pet state is a Python [dict] with string keys: a
      [gmap string value].  A value is an [int] or a [str]; subscripting a
      missing key raises [KeyError], arithmetic and ordering on a [str]
      raise [TypeError].  Documents with other kinds of values (floats,
      booleans, null, nested lists and objects), and state files whose
      JSON is not an object at all, are outside the model.
    - The tools run in a small state-and-exception monad over a [World]:
      the files on disk and the wall clock.
    - [json.dump] and [json.load] are library code.  A file on disk is
      either a JSON document, identified with the dictionary it denotes,
      or text that [json.load] rejects.  *)

From Stdlib Require Import ZArith QArith String List Lia.
From stdpp Require Import base option gmap strings pretty list.

Open Scope string_scope.
Open Scope Z_scope.

(** ** Python values and exceptions *)

Inductive value : Type :=
| VInt (z : Z)
| VStr (s : string).

Inductive exn : Type :=
| FileNotFoundError
| JSONDecodeError
| KeyError (key : string)
| TypeError
| OverflowError.

Inductive Result (A : Type) : Type :=
| Ok (a : A)
| Raise (e : exn).

Arguments Ok {A} a.
Arguments Raise {A} e.

(** A float, as far as its order against an integer literal goes. *)
Inductive pyfloat : Type :=
| Finite (q : Q)
| PosInf
| NegInf
| NaN.

(** [x < n] for a float [x] and an integer literal [n]: false on NaN. *)
Definition float_lt (x : pyfloat) (n : Z) : bool :=
  match x with
  | Finite q => negb (Qle_bool (inject_Z n) q)
  | NegInf => true
  | PosInf | NaN => false
  end.

(** ** The scoring engine *)

(** [email_stats]: a dict in which any of the eight keys may be missing;
    [calculate_pet_stats] reads each with [.get(key, default)]. *)
Record EmailStats : Type := mkEmailStats {
  unread_count : option Z;
  total_inbox_count : option Z;
  emails_awaiting_reply : option Z;
  avg_response_time_hours : option pyfloat;
  dormant_threads_7days : option Z;
  action_emails_percent : option Z;
  volume_today : option Z;
  is_busy_period : option bool
}.

(** [max(0, min(100, x))] *)
Definition clamp (x : Z) : Z := Z.max 0 (Z.min 100 x).

Definition calculate_pet_stats (email_stats : EmailStats) : Z * Z * Z :=
  let health := 50 in
  let happiness := 50 in
  let energy := 50 in
  (* Health calculation (responsiveness) *)
  let emails_awaiting := default 0 (emails_awaiting_reply email_stats) in
  let avg_response_time :=
    default (Finite (inject_Z 24)) (avg_response_time_hours email_stats) in
  let dormant_threads := default 0 (dormant_threads_7days email_stats) in
  let health :=
    if emails_awaiting =? 0 then health + 15
    else if emails_awaiting <? 5 then health + 10
    else if emails_awaiting >? 10 then health - 10
    else health in
  let health := if float_lt avg_response_time 4 then health + 5 else health in
  let health := health - dormant_threads * 15 in
  (* Happiness calculation (organization) *)
  let unread_count := default 0 (unread_count email_stats) in
  let total_inbox := default 0 (total_inbox_count email_stats) in
  let happiness :=
    if unread_count =? 0 then happiness + 20
    else if unread_count <? 10 then happiness + 10
    else if unread_count >? 50 then happiness - 5
    else happiness in
  let happiness :=
    if total_inbox <? 50 then happiness + 5
    else if total_inbox >? 200 then happiness - 10
    else happiness in
  (* Energy calculation (workload balance) *)
  let action_percent := default 50 (action_emails_percent email_stats) in
  let is_busy_period := default false (is_busy_period email_stats) in
  let volume_today := default 10 (volume_today email_stats) in
  let energy :=
    if action_percent <=? 30 then energy + 10
    else if action_percent >? 70 then energy - 10
    else energy in
  let energy :=
    if is_busy_period && (volume_today >? 30) then energy - 5
    else if negb is_busy_period && (volume_today <? 10) then energy + 15
    else energy in
  (* Clamp values between 0-100 *)
  (clamp health, clamp happiness, clamp energy).

(** The dict the update tool builds from its eight keyword arguments:
    every key is present. *)
Definition email_stats_of
    (unread total_inbox awaiting : Z) (avg_response : pyfloat)
    (dormant action_percent volume : Z) (busy : bool) : EmailStats :=
  {| unread_count := Some unread;
     total_inbox_count := Some total_inbox;
     emails_awaiting_reply := Some awaiting;
     avg_response_time_hours := Some avg_response;
     dormant_threads_7days := Some dormant;
     action_emails_percent := Some action_percent;
     volume_today := Some volume;
     is_busy_period := Some busy |}.

(** The empty dict: every key falls back to its default. *)
Definition no_stats : EmailStats :=
  mkEmailStats None None None None None None None None.

(** The tool's declared defaults. *)
Definition default_stats : EmailStats :=
  email_stats_of 0 0 0 (Finite (24 # 1)) 0 50 10 false.

(** ** The world: files and the clock *)

(** What [json.load] makes of a file's text: the dictionary a JSON
    document denotes, or a [JSONDecodeError]. *)
Inductive file : Type :=
| Document (d : gmap string value)
| Garbled (raw : string).

(** [clock w n] is what the [n]-th call of
    [datetime.datetime.now().isoformat()] returns; [ticks w] counts the
    calls made so far. *)
Record World : Type := mkWorld {
  files : gmap string file;
  clock : nat → string;
  ticks : nat
}.

(** State and exceptions: a computation runs in a world and either
    returns or raises, leaving a world behind in both cases. *)
Definition M (A : Type) : Type := World → Result A * World.

Definition ret {A : Type} (a : A) : M A := λ w, (Ok a, w).

Definition bind {A B : Type} (m : M A) (k : A → M B) : M B :=
  λ w, match m w with
       | (Ok a, w') => k a w'
       | (Raise e, w') => (Raise e, w')
       end.

Definition raise {A : Type} (e : exn) : M A := λ w, (Raise e, w).

(** A pure computation that may raise, run inside a tool. *)
Definition lift {A : Type} (r : Result A) : M A := λ w, (r, w).

Definition rbind {A B : Type} (r : Result A) (k : A → Result B) : Result B :=
  match r with
  | Ok a => k a
  | Raise e => Raise e
  end.

Declare Scope py_scope.
Delimit Scope py_scope with py.
Notation "x <- m ;; k" := (bind m (λ x, k))
  (at level 100, m at next level, right associativity) : py_scope.
Notation "x <~ r ;; k" := (rbind r (λ x, k))
  (at level 100, r at next level, right associativity) : py_scope.
Open Scope py_scope.

(** [try: body except E: handler], for the exceptions [handles] accepts. *)
Definition try_except {A : Type}
    (body : M A) (handles : exn → bool) (handler : M A) : M A :=
  λ w, match body w with
       | (Ok a, w') => (Ok a, w')
       | (Raise e, w') => if handles e then handler w' else (Raise e, w')
       end.

Definition is_FileNotFoundError (e : exn) : bool :=
  match e with
  | FileNotFoundError => true
  | _ => false
  end.

(** [open(path, 'r')] *)
Definition open_read (path : string) : M file :=
  λ w, match files w !! path with
       | Some f => (Ok f, w)
       | None => (Raise FileNotFoundError, w)
       end.

(** [json.load(f)] *)
Definition json_load (f : file) : M (gmap string value) :=
  match f with
  | Document d => ret d
  | Garbled _ => raise JSONDecodeError
  end.

(** [with open(path, 'w') as f: json.dump(state, f, indent=2)]: the file
    is created or replaced, and holds the document of [state]. *)
Definition json_dump_to (path : string) (state : gmap string value) : M unit :=
  λ w, (Ok tt, mkWorld (<[path := Document state]> (files w)) (clock w) (ticks w)).

(** [datetime.datetime.now().isoformat()] *)
Definition datetime_now_isoformat : M string :=
  λ w, (Ok (clock w (ticks w)), mkWorld (files w) (clock w) (S (ticks w))).

(** ** The state store *)

Definition PET_STATE_FILE : string := "pet_state.json".

Definition mood_happy : string := "😊".
Definition mood_neutral : string := "😐".
Definition mood_sad : string := "😵".

Definition default_state (now : string) : gmap string value :=
  list_to_map
    [ ("name", VStr "Pokagotchi");
      ("health", VInt 75);
      ("happiness", VInt 75);
      ("energy", VInt 75);
      ("last_updated", VStr now);
      ("status", VStr "okay");
      ("mood_emoji", VStr mood_neutral) ].

Definition load_pet_state : M (gmap string value) :=
  try_except
    (f <- open_read PET_STATE_FILE ;; json_load f)
    is_FileNotFoundError
    (now <- datetime_now_isoformat ;; ret (default_state now)).

Definition save_pet_state (state : gmap string value) : M unit :=
  json_dump_to PET_STATE_FILE state.

(** ** Python operators on dynamically typed values *)

(** [state[key]] *)
Definition getitem (state : gmap string value) (key : string) : Result value :=
  match state !! key with
  | Some v => Ok v
  | None => Raise (KeyError key)
  end.

(** [a + b]: addition on [int], concatenation on [str]. *)
Definition py_add (a b : value) : Result value :=
  match a, b with
  | VInt x, VInt y => Ok (VInt (x + y))
  | VStr x, VStr y => Ok (VStr (x +:+ y))
  | _, _ => Raise TypeError
  end.

(** The least magnitude that rounds to an infinite double. *)
Definition float_overflow_bound : Z := 2 ^ 1024 - 2 ^ 970.

(** [a / b] on integers, [b] a positive literal.  True division returns the
    double nearest to the quotient, or raises [OverflowError] when that
    is not finite.  The model keeps the exact quotient: the code only
    compares the result with 80 and 50, which are doubles, and rounding to
    nearest is monotone, so these comparisons have the same outcome on
    the exact quotient. *)
Definition int_truediv (a : Z) (b : positive) : Result Q :=
  if Zpos b * float_overflow_bound <=? Z.abs a then Raise OverflowError
  else Ok (a # b).

Definition py_truediv (a : value) (b : positive) : Result Q :=
  match a with
  | VInt x => int_truediv x b
  | VStr _ => Raise TypeError
  end.

(** [x >= n] for the float [x] and an integer literal [n]. *)
Definition float_ge (x : Q) (n : Z) : bool := Qle_bool (inject_Z n) x.

(** [a >= n] and [a < n] for a value [a] and an integer literal [n]. *)
Definition py_ge (a : value) (n : Z) : Result bool :=
  match a with
  | VInt x => Ok (x >=? n)
  | VStr _ => Raise TypeError
  end.

Definition py_lt (a : value) (n : Z) : Result bool :=
  match a with
  | VInt x => Ok (x <? n)
  | VStr _ => Raise TypeError
  end.

(** [str(a)], as an f-string formats a field. *)
Definition py_str (a : value) : string :=
  match a with
  | VInt x => pretty x
  | VStr s => s
  end.

Definition nl : string := String (Ascii.ascii_of_nat 10) EmptyString.

(** [items.append(x)] *)
Definition append {A : Type} (items : list A) (x : A) : list A :=
  (items ++ [x])%list.

(** [sep.join(items)] *)
Definition join (sep : string) (items : list string) : string :=
  String.concat sep items.

(** ** Presentation *)

Definition art_happy : string :=
  join nl [ "    ◕   ◕"; "      ω"; "   \_____/"; "    |  |  |"; "     😊" ].

Definition art_neutral : string :=
  join nl [ "    ◔   ◔"; "      ︶"; "   \_____/"; "    |  |  |"; "     😐" ].

Definition art_sad : string :=
  join nl [ "    ×   ×"; "      ︵"; "   \_____/"; "    |  |  |"; "     😵" ].

Definition get_pet_ascii_art (health happiness energy : value) : Result string :=
  s <~ py_add health happiness ;;
  s <~ py_add s energy ;;
  avg_stat <~ py_truediv s 3 ;;
  if float_ge avg_stat 80 then Ok art_happy
  else if float_ge avg_stat 50 then Ok art_neutral
  else Ok art_sad.

Definition msg_responsive : string := "Your Pokagotchi is responsive! 📧✨".
Definition msg_attention : string := "Your pet needs some email attention 📬".
Definition msg_drowning : string := "Your Pokagotchi is drowning in emails! 😵".
Definition msg_organized : string := "Inbox organized, pet happy! 📥😊".
Definition msg_exhausted : string := "Too many action emails, pet exhausted! 😴".

Definition get_status_message (health happiness energy : value) : Result string :=
  let messages : list string := [] in
  c80 <~ py_ge health 80 ;;
  messages <~ (if c80 : bool then Ok (append messages msg_responsive)
               else c50 <~ py_ge health 50 ;;
                    if c50 : bool then Ok (append messages msg_attention)
                    else Ok (append messages msg_drowning)) ;;
  c <~ py_ge happiness 80 ;;
  let messages := if c : bool then append messages msg_organized else messages in
  c <~ py_lt energy 50 ;;
  let messages := if c : bool then append messages msg_exhausted else messages in
  Ok (join " | " messages).

(** ** The three tools *)

Definition check_pet_status : M string :=
  state <- load_pet_state ;;
  ascii_art <- lift (h <~ getitem state "health" ;;
                     p <~ getitem state "happiness" ;;
                     e <~ getitem state "energy" ;;
                     get_pet_ascii_art h p e) ;;
  status_msg <- lift (h <~ getitem state "health" ;;
                      p <~ getitem state "happiness" ;;
                      e <~ getitem state "energy" ;;
                      get_status_message h p e) ;;
  lift (name <~ getitem state "name" ;;
        h <~ getitem state "health" ;;
        p <~ getitem state "happiness" ;;
        e <~ getitem state "energy" ;;
        last_updated <~ getitem state "last_updated" ;;
        Ok (nl +:+ "🐾 " +:+ py_str name +:+ " Status 🐾" +:+ nl
            +:+ nl
            +:+ ascii_art +:+ nl
            +:+ nl
            +:+ "Health: " +:+ py_str h +:+ "/100 ❤️" +:+ nl
            +:+ "Happiness: " +:+ py_str p +:+ "/100 😊" +:+ nl
            +:+ "Energy: " +:+ py_str e +:+ "/100 ⚡" +:+ nl
            +:+ nl
            +:+ status_msg +:+ nl
            +:+ nl
            +:+ "Last updated: " +:+ py_str last_updated +:+ nl)).

(** The branch on [avg_stat] of the update tool: the values it assigns to
    [state["status"]] and [state["mood_emoji"]]. *)
Definition classify (avg_stat : Q) : string * string :=
  if float_ge avg_stat 80 then ("thriving", mood_happy)
  else if float_ge avg_stat 50 then ("okay", mood_neutral)
  else ("struggling", mood_sad).

Definition update_pet_from_email_data
    (unread_count total_inbox_count emails_awaiting_reply : Z)
    (avg_response_time_hours : pyfloat)
    (dormant_threads_7days action_emails_percent volume_today : Z)
    (is_busy_period : bool) : M string :=
  let email_stats :=
    email_stats_of unread_count total_inbox_count emails_awaiting_reply
      avg_response_time_hours dormant_threads_7days action_emails_percent
      volume_today is_busy_period in
  let '(health, happiness, energy) := calculate_pet_stats email_stats in
  state <- load_pet_state ;;
  let state := <["health" := VInt health]> state in
  let state := <["happiness" := VInt happiness]> state in
  let state := <["energy" := VInt energy]> state in
  now <- datetime_now_isoformat ;;
  let state := <["last_updated" := VStr now]> state in
  (* Update status and emoji based on average *)
  avg_stat <- lift (int_truediv (health + happiness + energy) 3) ;;
  let '(status, mood_emoji) := classify avg_stat in
  let state := <["status" := VStr status]> state in
  let state := <["mood_emoji" := VStr mood_emoji]> state in
  _ <- save_pet_state state ;;
  ret ("Pet updated! Health: " +:+ pretty health
       +:+ ", Happiness: " +:+ pretty happiness
       +:+ ", Energy: " +:+ pretty energy).

Definition tip_health : string :=
  "🏥 Health tip: Reply to those pending emails to boost your pet's health!".
Definition tip_happiness : string :=
  "📥 Happiness tip: Try achieving inbox zero - your pet loves organization!".
Definition tip_energy : string :=
  "⚡ Energy tip: Take breaks between email sessions to recharge your pet!".
Definition congratulation : string :=
  "🎉 Great job! Your Pokagotchi is thriving! Keep up the good email habits!".

(** The checklist of [get_pet_advice], on the loaded state. *)
Definition advice_lines (state : gmap string value) : Result (list string) :=
  let advice : list string := [] in
  h <~ getitem state "health" ;;
  c <~ py_lt h 70 ;;
  let advice := if c : bool then append advice tip_health else advice in
  p <~ getitem state "happiness" ;;
  c <~ py_lt p 70 ;;
  let advice := if c : bool then append advice tip_happiness else advice in
  e <~ getitem state "energy" ;;
  c <~ py_lt e 70 ;;
  let advice := if c : bool then append advice tip_energy else advice in
  let advice :=
    match advice with
    | [] => append advice congratulation
    | _ :: _ => advice
    end in
  Ok advice.

Definition get_pet_advice : M string :=
  state <- load_pet_state ;;
  advice <- lift (advice_lines state) ;;
  ret (join nl advice).

(** ** Notions used in the statements *)

(** The persisted record: what the state file holds, if it exists. *)
Definition persisted (w : World) : option file := files w !! PET_STATE_FILE.

(** A field of the persisted record, when the file is a JSON document. *)
Definition stored_field (w : World) (key : string) : option value :=
  match persisted w with
  | Some (Document d) => d !! key
  | _ => None
  end.

(** The arithmetic mean of three integer scores. *)
Definition mean3 (health happiness energy : Z) : Q :=
  (health + happiness + energy) # 3.

(** The six keys the update tool assigns. *)
Definition updated_keys : list string :=
  [ "health"; "happiness"; "energy"; "last_updated"; "status"; "mood_emoji" ].

(** The state the update tool saves, given the state it loaded, the new
    scores and the clock reading. *)
Definition updated_state (state : gmap string value) (h p e : Z) (now : string)
    : gmap string value :=
  <["mood_emoji" := VStr (classify (mean3 h p e)).2]>
    (<["status" := VStr (classify (mean3 h p e)).1]>
      (<["last_updated" := VStr now]>
        (<["energy" := VInt e]>
          (<["happiness" := VInt p]>
            (<["health" := VInt h]> state))))).

(** The text the update tool returns. *)
Definition confirmation (h p e : Z) : string :=
  "Pet updated! Health: " +:+ pretty h
  +:+ ", Happiness: " +:+ pretty p
  +:+ ", Energy: " +:+ pretty e.

(** The world after [state] was saved and the clock was read [n] times. *)
Definition write_state (w : World) (state : gmap string value) (n : nat) : World :=
  mkWorld (<[PET_STATE_FILE := Document state]> (files w)) (clock w) (n + ticks w).

(** The invariant of a pet state: the three scores are integers in
    [0,100], and status and mood symbol are the band of their mean. *)
Definition pet_invariant (state : gmap string value) : Prop :=
  ∃ (h p e : Z) (status mood : string),
    state !! "health" = Some (VInt h) ∧
    state !! "happiness" = Some (VInt p) ∧
    state !! "energy" = Some (VInt e) ∧
    state !! "status" = Some (VStr status) ∧
    state !! "mood_emoji" = Some (VStr mood) ∧
    (0 <= h <= 100) ∧ (0 <= p <= 100) ∧ (0 <= e <= 100) ∧
    ((inject_Z 80 <= mean3 h p e)%Q ↔
       status = "thriving" ∧ mood = mood_happy) ∧
    ((inject_Z 50 <= mean3 h p e)%Q ∧ (mean3 h p e < inject_Z 80)%Q ↔
       status = "okay" ∧ mood = mood_neutral) ∧
    ((mean3 h p e < inject_Z 50)%Q ↔
       status = "struggling" ∧ mood = mood_sad).

(** A clock for the examples: two successive readings, five seconds apart. *)
Definition sample_clock (n : nat) : string :=
  match n with
  | O => "2025-01-01T09:00:00.000000"
  | S _ => "2025-01-01T09:00:05.000000"
  end.

(** A world with no state file. *)
Definition empty_world : World := mkWorld ∅ sample_clock 0.

(** A world whose state file holds [state]. *)
Definition world_with (state : gmap string value) : World :=
  mkWorld {[ PET_STATE_FILE := Document state ]} sample_clock 0.

(** The text of the status tool on the default state stamped [now]. *)
Definition default_report (now : string) : string :=
  nl +:+ "🐾 Pokagotchi Status 🐾" +:+ nl
  +:+ nl
  +:+ art_neutral +:+ nl
  +:+ nl
  +:+ "Health: 75/100 ❤️" +:+ nl
  +:+ "Happiness: 75/100 😊" +:+ nl
  +:+ "Energy: 75/100 ⚡" +:+ nl
  +:+ nl
  +:+ msg_attention +:+ nl
  +:+ nl
  +:+ "Last updated: " +:+ now +:+ nl.

(** Membership in, and order of, a concrete list of advice lines. *)
Ltac in_lines := by apply (bool_decide_unpack _).
Ltac not_in_lines H :=
  exfalso; revert H; by apply (bool_decide_unpack (¬ _)).
Ltac subsequence :=
  repeat first [apply sublist_nil | apply sublist_skip | apply sublist_cons].

(** A state with all three scores at 60. *)
Definition state_60 : gmap string value :=
  <["health" := VInt 60]>
    (<["happiness" := VInt 60]>
      (<["energy" := VInt 60]> (default_state "2024-12-31T08:00:00.000000"))).

(** Case analysis on every test of a conditional in the goal. *)
Ltac split_tests :=
  repeat match goal with
         | |- context [if ?c then _ else _] => destruct c
         end.

(** * Properties *)

(** ** The scoring engine *)

Lemma clamp_range (x : Z) : 0 <= clamp x <= 100.
Proof. unfold clamp. lia. Qed.

Lemma calculate_pet_stats_range (s : EmailStats) (h p e : Z) :
  calculate_pet_stats s = (h, p, e) →
  (0 <= h <= 100) ∧ (0 <= p <= 100) ∧ (0 <= e <= 100).
Proof.
  unfold calculate_pet_stats. cbv zeta. intros [= <- <- <-].
  repeat split; apply clamp_range.
Qed.

(** Without negative dormant threads no adjustment pushes a score above
    its best case: 50 + 15 + 5, 50 + 20 + 5 and 50 + 10 + 15. *)
Lemma calculate_pet_stats_upper (s : EmailStats) (h p e : Z) :
  calculate_pet_stats s = (h, p, e) →
  0 <= default 0 (dormant_threads_7days s) →
  h <= 70 ∧ p <= 75 ∧ e <= 75.
Proof.
  unfold calculate_pet_stats. cbv zeta. intros [= <- <- <-] Hd.
  unfold clamp.
  repeat match goal with
         | |- context [if ?c then _ else _] => destruct c
         end; lia.
Qed.

(** C1: for every email-metrics input (each key present or missing, any
    integers, any float, any boolean), each of the health, happiness and
    energy scores that [calculate_pet_stats] returns lies in [0,100]. *)
Theorem scores_within_0_100 (email_stats : EmailStats) :
  let '(health, happiness, energy) := calculate_pet_stats email_stats in
  (0 <= health <= 100) ∧ (0 <= happiness <= 100) ∧ (0 <= energy <= 100).
Proof.
  destruct (calculate_pet_stats email_stats) as [[h p] e] eqn:E.
  exact (calculate_pet_stats_range _ _ _ _ E).
Qed.

(** C3: on the all-defaults input the scoring function returns
    (health 65, happiness 75, energy 50), whether the defaults are passed
    explicitly, as the update tool does, or left to [.get]; the update
    tool called with its defaults reports these three scores. *)
Theorem default_input_scores :
  calculate_pet_stats default_stats = (65, 75, 50) ∧
  calculate_pet_stats no_stats = (65, 75, 50) ∧
  (update_pet_from_email_data 0 0 0 (Finite (24 # 1)) 0 50 10 false
     empty_world).1
  = Ok "Pet updated! Health: 65, Happiness: 75, Energy: 50".
Proof. split_and!; vm_compute; reflexivity. Qed.

(** ** The state store *)

Lemma load_absent (w : World) :
  persisted w = None →
  load_pet_state w =
    (Ok (default_state (clock w (ticks w))),
     mkWorld (files w) (clock w) (S (ticks w))).
Proof.
  unfold persisted, load_pet_state, try_except, bind, open_read.
  intros ->. reflexivity.
Qed.

Lemma load_document (w : World) (d : gmap string value) :
  persisted w = Some (Document d) → load_pet_state w = (Ok d, w).
Proof.
  unfold persisted, load_pet_state, try_except, bind, open_read.
  intros ->. reflexivity.
Qed.

Lemma load_garbled (w : World) (raw : string) :
  persisted w = Some (Garbled raw) →
  load_pet_state w = (Raise JSONDecodeError, w).
Proof.
  unfold persisted, load_pet_state, try_except, bind, open_read.
  intros ->. reflexivity.
Qed.

(** C6: [load_pet_state] returns the default state (name "Pokagotchi",
    health, happiness and energy 75, status "okay", stamped with the
    current time) when the state file is absent, and then writes nothing;
    when the file holds a document it returns that document and never the
    default; a file that is not valid JSON makes it raise
    [JSONDecodeError], which is not caught.  No case changes the files,
    and the default branch, the only one to read the clock, is taken
    exactly when the file is absent. *)
Theorem load_default_only_when_absent (w : World) :
  (persisted w = None →
     ∃ w', load_pet_state w = (Ok (default_state (clock w (ticks w))), w') ∧
           files w' = files w) ∧
  (∀ d, persisted w = Some (Document d) → load_pet_state w = (Ok d, w)) ∧
  (∀ raw, persisted w = Some (Garbled raw) →
     load_pet_state w = (Raise JSONDecodeError, w)) ∧
  files (load_pet_state w).2 = files w ∧
  (ticks (load_pet_state w).2 ≠ ticks w ↔ persisted w = None) ∧
  (∀ now,
     default_state now !! "name" = Some (VStr "Pokagotchi") ∧
     default_state now !! "health" = Some (VInt 75) ∧
     default_state now !! "happiness" = Some (VInt 75) ∧
     default_state now !! "energy" = Some (VInt 75) ∧
     default_state now !! "last_updated" = Some (VStr now) ∧
     default_state now !! "status" = Some (VStr "okay") ∧
     default_state now !! "mood_emoji" = Some (VStr mood_neutral)).
Proof.
  split_and!.
  - intros Hw. rewrite (load_absent _ Hw). by eexists.
  - apply load_document.
  - apply load_garbled.
  - destruct (persisted w) as [[d|raw]|] eqn:Ew.
    + by rewrite (load_document _ _ Ew).
    + by rewrite (load_garbled _ _ Ew).
    + by rewrite (load_absent _ Ew).
  - destruct (persisted w) as [[d|raw]|] eqn:Ew.
    + rewrite (load_document _ _ Ew). split; [by intros []|done].
    + rewrite (load_garbled _ _ Ew). split; [by intros []|done].
    + rewrite (load_absent _ Ew). cbn. split; [done|lia].
  - intros now. by split_and!.
Qed.

Lemma load_default_only_when_absent_witness :
  persisted empty_world = None ∧
  ∃ w', load_pet_state empty_world
          = (Ok (default_state "2025-01-01T09:00:00.000000"), w') ∧
        files w' = files empty_world.
Proof.
  split; [reflexivity|].
  destruct (load_default_only_when_absent empty_world) as [Habsent _].
  apply Habsent. reflexivity.
Defined.

(** C8: saving any state and then loading returns that very state, key by
    key, whatever the state file held before. *)
Theorem save_then_load (state : gmap string value) (w : World) :
  let '(r, w1) := save_pet_state state w in
  r = Ok tt ∧
  load_pet_state w1 = (Ok state, w1) ∧
  ∃ loaded, (load_pet_state w1).1 = Ok loaded ∧
            ∀ key, loaded !! key = state !! key.
Proof.
  unfold save_pet_state, json_dump_to.
  assert (persisted (mkWorld (<[PET_STATE_FILE := Document state]> (files w))
                       (clock w) (ticks w)) = Some (Document state)) as Hp.
  { unfold persisted. cbn. apply lookup_insert_eq. }
  split_and!; [done | by apply load_document |].
  exists state. by rewrite (load_document _ _ Hp).
Qed.

(** ** Classification of the mean *)

Lemma float_ge_true (x : Q) (n : Z) : float_ge x n = true ↔ (inject_Z n <= x)%Q.
Proof. unfold float_ge. apply Qle_bool_iff. Qed.

Lemma float_ge_false (x : Q) (n : Z) : float_ge x n = false ↔ (x < inject_Z n)%Q.
Proof.
  unfold float_ge. split.
  - intros H. apply Qnot_le_lt. intros Hle. apply Qle_bool_iff in Hle. congruence.
  - intros H. destruct (Qle_bool (inject_Z n) x) eqn:E; [|done].
    apply Qle_bool_iff in E. exfalso. exact (Qlt_not_le _ _ H E).
Qed.

Lemma classify_thriving (avg : Q) :
  (inject_Z 80 <= avg)%Q → classify avg = ("thriving", mood_happy).
Proof. intros H. unfold classify. apply float_ge_true in H. by rewrite H. Qed.

Lemma classify_okay (avg : Q) :
  (inject_Z 50 <= avg)%Q → (avg < inject_Z 80)%Q →
  classify avg = ("okay", mood_neutral).
Proof.
  intros H50 H80. unfold classify.
  apply float_ge_true in H50. apply float_ge_false in H80.
  by rewrite H80, H50.
Qed.

Lemma classify_struggling (avg : Q) :
  (avg < inject_Z 50)%Q → classify avg = ("struggling", mood_sad).
Proof.
  intros H50. unfold classify.
  assert (avg < inject_Z 80)%Q as H80.
  { eapply Qlt_trans; [exact H50|]. reflexivity. }
  apply float_ge_false in H50. apply float_ge_false in H80.
  by rewrite H80, H50.
Qed.

Create HintDb bands discriminated.
#[local] Hint Resolve classify_thriving classify_okay classify_struggling : bands.

(** The three bands cover the rationals. *)
Lemma classify_cases (avg : Q) :
  ((inject_Z 80 <= avg)%Q ∧ classify avg = ("thriving", mood_happy)) ∨
  ((inject_Z 50 <= avg)%Q ∧ (avg < inject_Z 80)%Q ∧
     classify avg = ("okay", mood_neutral)) ∨
  ((avg < inject_Z 50)%Q ∧ classify avg = ("struggling", mood_sad)).
Proof.
  destruct (float_ge avg 80) eqn:E80.
  - left. apply float_ge_true in E80. auto with bands.
  - apply float_ge_false in E80. destruct (float_ge avg 50) eqn:E50.
    + right; left. apply float_ge_true in E50. auto with bands.
    + right; right. apply float_ge_false in E50. auto with bands.
Qed.

Lemma classify_iff (avg : Q) :
  (classify avg = ("thriving", mood_happy) ↔ (inject_Z 80 <= avg)%Q) ∧
  (classify avg = ("okay", mood_neutral) ↔
     (inject_Z 50 <= avg)%Q ∧ (avg < inject_Z 80)%Q) ∧
  (classify avg = ("struggling", mood_sad) ↔ (avg < inject_Z 50)%Q).
Proof.
  assert (inject_Z 50 <= inject_Z 80)%Q as H5080 by discriminate.
  destruct (classify_cases avg) as [[H ->]|[(H1 & H2 & ->)|[H ->]]];
    (split_and!; split; try done).
  - intros [_ H']. exfalso. exact (Qlt_not_le _ _ H' H).
  - intros H'. exfalso. apply (Qlt_not_le _ _ H'). by eapply Qle_trans.
  - intros H'. exfalso. exact (Qlt_not_le _ _ H2 H').
  - intros H'. exfalso. exact (Qlt_not_le _ _ H' H1).
  - intros H'. exfalso. apply (Qlt_not_le _ _ H). by eapply Qle_trans.
  - intros [H' _]. exfalso. exact (Qlt_not_le _ _ H H').
Qed.

Lemma classify_below_80 (avg : Q) :
  (avg < inject_Z 80)%Q →
  (classify avg).1 ≠ "thriving" ∧ (classify avg).2 ≠ mood_happy.
Proof.
  intros H. unfold classify. apply float_ge_false in H. rewrite H.
  by destruct (float_ge avg 50).
Qed.

(** ** The state the update tool saves *)

Lemma float_overflow_bound_large : 300 < float_overflow_bound.
Proof. reflexivity. Qed.

(** The mean of three clamped scores is far from overflowing a double. *)
Lemma int_truediv_scores (h p e : Z) :
  0 <= h <= 100 → 0 <= p <= 100 → 0 <= e <= 100 →
  int_truediv (h + p + e) 3 = Ok (mean3 h p e).
Proof.
  intros Hh Hp He. unfold int_truediv, mean3.
  pose proof float_overflow_bound_large.
  destruct (Z.leb_spec (3 * float_overflow_bound) (Z.abs (h + p + e))); [lia | done].
Qed.

Lemma updated_state_lookup (d : gmap string value) (h p e : Z) (now : string) :
  updated_state d h p e now !! "health" = Some (VInt h) ∧
  updated_state d h p e now !! "happiness" = Some (VInt p) ∧
  updated_state d h p e now !! "energy" = Some (VInt e) ∧
  updated_state d h p e now !! "last_updated" = Some (VStr now) ∧
  updated_state d h p e now !! "status" = Some (VStr (classify (mean3 h p e)).1) ∧
  updated_state d h p e now !! "mood_emoji" = Some (VStr (classify (mean3 h p e)).2).
Proof. unfold updated_state. split_and!; by simplify_map_eq. Qed.

Lemma updated_state_frame (d : gmap string value) (h p e : Z) (now key : string) :
  key ∉ updated_keys → updated_state d h p e now !! key = d !! key.
Proof.
  unfold updated_keys, updated_state. intros Hk.
  repeat (rewrite lookup_insert_ne; [|intros <-; apply Hk; set_solver]).
  done.
Qed.

Lemma persisted_write_state (w : World) (state : gmap string value) (n : nat) :
  persisted (write_state w state n) = Some (Document state).
Proof. unfold persisted, write_state. cbn. apply lookup_insert_eq. Qed.

Lemma stored_field_write_state
    (w : World) (state : gmap string value) (n : nat) (key : string) :
  stored_field (write_state w state n) key = state !! key.
Proof. unfold stored_field. by rewrite persisted_write_state. Qed.

(** ** The update tool *)

Section UpdateTool.

(** The eight keyword arguments of one call. *)
Variables (unread total awaiting : Z) (avg : pyfloat).
Variables (dormant action volume : Z) (busy : bool).

Local Abbreviation stats :=
  (email_stats_of unread total awaiting avg dormant action volume busy).
Local Abbreviation update :=
  (update_pet_from_email_data
     unread total awaiting avg dormant action volume busy).

(** One call, by what the state file holds: a fresh default state or
    the loaded one is updated and saved, or the call raises and leaves
    the world alone. *)
Lemma update_run (w : World) (h p e : Z) :
  calculate_pet_stats stats = (h, p, e) →
  update w =
  match persisted w with
  | None =>
      (Ok (confirmation h p e),
       write_state w
         (updated_state (default_state (clock w (ticks w))) h p e
            (clock w (S (ticks w)))) 2)
  | Some (Document d) =>
      (Ok (confirmation h p e),
       write_state w (updated_state d h p e (clock w (ticks w))) 1)
  | Some (Garbled _) => (Raise JSONDecodeError, w)
  end.
Proof.
  intros E. unfold update_pet_from_email_data. rewrite E.
  destruct (calculate_pet_stats_range _ _ _ _ E) as (Hh & Hp & He).
  unfold bind at 1.
  destruct (persisted w) as [[d|raw]|] eqn:Ew.
  - rewrite (load_document _ _ Ew).
    unfold bind, datetime_now_isoformat, lift. cbn.
    rewrite (int_truediv_scores _ _ _ Hh Hp He).
    destruct (classify (mean3 h p e)) as [st mood] eqn:Ec.
    unfold updated_state. rewrite Ec. reflexivity.
  - rewrite (load_garbled _ _ Ew). reflexivity.
  - rewrite (load_absent _ Ew).
    unfold bind, datetime_now_isoformat, lift. cbn.
    rewrite (int_truediv_scores _ _ _ Hh Hp He).
    destruct (classify (mean3 h p e)) as [st mood] eqn:Ec.
    unfold updated_state. rewrite Ec. reflexivity.
Qed.

(** C9: on a persisted state [d], the update tool returns the
    confirmation text with the three new scores and saves a state in
    which health, happiness, energy, status, mood_emoji and last_updated
    hold the new values, while every other key, name among them, holds
    what it held in [d]; no other file is touched. *)
Theorem update_overwrites_six_fields (w : World) (d : gmap string value) :
  persisted w = Some (Document d) →
  let '(h, p, e) := calculate_pet_stats stats in
  ∃ (d' : gmap string value) (w' : World),
    update w
    = (Ok ("Pet updated! Health: " +:+ pretty h
           +:+ ", Happiness: " +:+ pretty p
           +:+ ", Energy: " +:+ pretty e), w') ∧
    persisted w' = Some (Document d') ∧
    d' !! "health" = Some (VInt h) ∧
    d' !! "happiness" = Some (VInt p) ∧
    d' !! "energy" = Some (VInt e) ∧
    d' !! "last_updated" = Some (VStr (clock w (ticks w))) ∧
    d' !! "status" = Some (VStr (classify (mean3 h p e)).1) ∧
    d' !! "mood_emoji" = Some (VStr (classify (mean3 h p e)).2) ∧
    (∀ key, key ∉ updated_keys → d' !! key = d !! key) ∧
    d' !! "name" = d !! "name" ∧
    (∀ path, path ≠ PET_STATE_FILE → files w' !! path = files w !! path).
Proof.
  intros Hw.
  destruct (calculate_pet_stats stats) as [[h p] e] eqn:E.
  rewrite (update_run w _ _ _ E), Hw.
  eexists _, _. split; [reflexivity|].
  split; [apply persisted_write_state|].
  destruct (updated_state_lookup d h p e (clock w (ticks w)))
    as (? & ? & ? & ? & ? & ?).
  split_and!; try done.
  - intros key. apply updated_state_frame.
  - apply updated_state_frame. by apply (bool_decide_unpack _).
  - intros path Hpath. unfold write_state. cbn. by rewrite lookup_insert_ne.
Qed.

(** C5, as the code has it: for every input whose
    [dormant_threads_7days] is not negative, the scores satisfy
    health <= 70, happiness <= 75 and energy <= 75, so their mean is at
    most 220/3, which is below 80, and after the update tool has run the
    persisted status is not "thriving" and the persisted mood symbol is
    not the happy one. *)
Theorem update_never_thriving :
  0 <= dormant →
  let '(h, p, e) := calculate_pet_stats stats in
  h <= 70 ∧ p <= 75 ∧ e <= 75 ∧
  (mean3 h p e <= 220 # 3)%Q ∧ (mean3 h p e < inject_Z 80)%Q ∧
  ∀ w : World,
    let w' := (update w).2 in
    stored_field w' "status" ≠ Some (VStr "thriving") ∧
    stored_field w' "mood_emoji" ≠ Some (VStr mood_happy).
Proof.
  intros Hd.
  destruct (calculate_pet_stats stats) as [[h p] e] eqn:E.
  destruct (calculate_pet_stats_upper _ _ _ _ E Hd) as (Hh & Hp & He).
  assert (mean3 h p e <= 220 # 3)%Q as Hmean.
  { unfold mean3, Qle. cbn. lia. }
  assert (mean3 h p e < inject_Z 80)%Q as H80.
  { unfold mean3, Qlt. cbn. lia. }
  split_and!; try done.
  intros w. rewrite (update_run w _ _ _ E).
  destruct (classify_below_80 _ H80) as [Hs Hm].
  destruct (persisted w) as [[d|raw]|] eqn:Ew; cbv zeta; cbn [snd].
  - rewrite !stored_field_write_state.
    destruct (updated_state_lookup d h p e (clock w (ticks w)))
      as (_ & _ & _ & _ & -> & ->).
    split; congruence.
  - unfold stored_field. rewrite Ew. done.
  - rewrite !stored_field_write_state.
    destruct (updated_state_lookup (default_state (clock w (ticks w))) h p e
                (clock w (S (ticks w)))) as (_ & _ & _ & _ & -> & ->).
    split; congruence.
Qed.

End UpdateTool.

Lemma update_overwrites_six_fields_witness :
  let w := world_with (default_state "2024-12-31T08:00:00.000000") in
  persisted w = Some (Document (default_state "2024-12-31T08:00:00.000000")) ∧
  ∃ (d' : gmap string value) (w' : World),
    update_pet_from_email_data 0 0 0 (Finite (24 # 1)) 0 50 10 false w
    = (Ok ("Pet updated! Health: " +:+ pretty 65
           +:+ ", Happiness: " +:+ pretty 75
           +:+ ", Energy: " +:+ pretty 50), w') ∧
    persisted w' = Some (Document d') ∧
    d' !! "health" = Some (VInt 65) ∧
    d' !! "happiness" = Some (VInt 75) ∧
    d' !! "energy" = Some (VInt 50) ∧
    d' !! "last_updated" = Some (VStr "2025-01-01T09:00:00.000000") ∧
    d' !! "status" = Some (VStr (classify (mean3 65 75 50)).1) ∧
    d' !! "mood_emoji" = Some (VStr (classify (mean3 65 75 50)).2) ∧
    (∀ key, key ∉ updated_keys →
       d' !! key = default_state "2024-12-31T08:00:00.000000" !! key) ∧
    d' !! "name" = default_state "2024-12-31T08:00:00.000000" !! "name" ∧
    (∀ path, path ≠ PET_STATE_FILE → files w' !! path = files w !! path).
Proof.
  cbv zeta. split; [reflexivity|].
  apply (update_overwrites_six_fields 0 0 0 (Finite (24 # 1)) 0 50 10 false
           (world_with (default_state "2024-12-31T08:00:00.000000"))
           (default_state "2024-12-31T08:00:00.000000")).
  reflexivity.
Defined.

Lemma update_never_thriving_witness :
  0 <= 0 ∧
  let '(h, p, e) := calculate_pet_stats default_stats in
  h <= 70 ∧ p <= 75 ∧ e <= 75 ∧
  (mean3 h p e <= 220 # 3)%Q ∧ (mean3 h p e < inject_Z 80)%Q ∧
  ∀ w : World,
    let w' := (update_pet_from_email_data
                 0 0 0 (Finite (24 # 1)) 0 50 10 false w).2 in
    stored_field w' "status" ≠ Some (VStr "thriving") ∧
    stored_field w' "mood_emoji" ≠ Some (VStr mood_happy).
Proof.
  split; [lia|].
  apply (update_never_thriving 0 0 0 (Finite (24 # 1)) 0 50 10 false). lia.
Defined.

(** C5 as stated fails: a negative [dormant_threads_7days] raises health.
    With -4 dormant threads, no action mail and a quiet day the scores are
    (100, 75, 75), health exceeds 70, the mean is 250/3, and the update
    tool writes "thriving" with the happy symbol. *)
Lemma negative_dormant_writes_thriving :
  let stats := email_stats_of 0 0 0 (Finite (24 # 1)) (-4) 0 0 false in
  let w' := (update_pet_from_email_data
               0 0 0 (Finite (24 # 1)) (-4) 0 0 false empty_world).2 in
  calculate_pet_stats stats = (100, 75, 75) ∧
  ¬ ((calculate_pet_stats stats).1.1 <= 70) ∧
  ¬ (mean3 100 75 75 < inject_Z 80)%Q ∧
  stored_field w' "status" = Some (VStr "thriving") ∧
  stored_field w' "mood_emoji" = Some (VStr mood_happy).
Proof.
  cbv zeta. split_and!.
  - reflexivity.
  - replace (calculate_pet_stats _) with (100, 75, 75) by reflexivity.
    cbn. lia.
  - unfold mean3, Qlt. cbn. lia.
  - vm_compute. reflexivity.
  - vm_compute. reflexivity.
Qed.

(** ** What an update stores *)

(** C4: the classification step maps the exact rational mean of the three
    clamped scores (never re-clamped, never rounded to an integer) to
    status and mood symbol: "thriving" exactly when the mean is at least
    80, "okay" exactly when it is at least 50 and below 80, "struggling"
    exactly when it is below 50.  At 80 it gives "thriving", at 79.999
    "okay", at 50 "okay", at 49.999 "struggling".  On an absent state file
    and on every document the update tool returns and stores the class of
    the mean of the scores it computed, as status and as mood symbol; it
    raises only on a file that is not valid JSON, and then changes
    nothing. *)
Theorem classify_thresholds :
  (∀ avg : Q,
     (classify avg = ("thriving", mood_happy) ↔ (inject_Z 80 <= avg)%Q) ∧
     (classify avg = ("okay", mood_neutral) ↔
        (inject_Z 50 <= avg)%Q ∧ (avg < inject_Z 80)%Q) ∧
     (classify avg = ("struggling", mood_sad) ↔ (avg < inject_Z 50)%Q)) ∧
  classify (80 # 1) = ("thriving", mood_happy) ∧
  classify (79999 # 1000) = ("okay", mood_neutral) ∧
  classify (50 # 1) = ("okay", mood_neutral) ∧
  classify (49999 # 1000) = ("struggling", mood_sad) ∧
  (∀ (unread total awaiting : Z) (avg : pyfloat) (dormant action volume : Z)
     (busy : bool) (w : World),
     let '(h, p, e) :=
       calculate_pet_stats
         (email_stats_of unread total awaiting avg dormant action volume busy) in
     match update_pet_from_email_data
             unread total awaiting avg dormant action volume busy w with
     | (Ok _, w') =>
         stored_field w' "status" = Some (VStr (classify (mean3 h p e)).1) ∧
         stored_field w' "mood_emoji" = Some (VStr (classify (mean3 h p e)).2)
     | (Raise _, w') => w' = w
     end) ∧
  (∀ (unread total awaiting : Z) (avg : pyfloat) (dormant action volume : Z)
     (busy : bool) (w : World),
     let '(h, p, e) :=
       calculate_pet_stats
         (email_stats_of unread total awaiting avg dormant action volume busy) in
     match persisted w with
     | Some (Garbled _) =>
         update_pet_from_email_data
           unread total awaiting avg dormant action volume busy w
         = (Raise JSONDecodeError, w)
     | _ =>
         ∃ (msg : string) (w' : World),
           update_pet_from_email_data
             unread total awaiting avg dormant action volume busy w
           = (Ok msg, w') ∧
           stored_field w' "status"
           = Some (VStr (classify (mean3 h p e)).1) ∧
           stored_field w' "mood_emoji"
           = Some (VStr (classify (mean3 h p e)).2)
     end).
Proof.
  split_and!; try reflexivity.
  - exact classify_iff.
  - intros unread total awaiting avg dormant action volume busy w.
    destruct (calculate_pet_stats _) as [[h p] e] eqn:E.
    rewrite (update_run _ _ _ _ _ _ _ _ w _ _ _ E).
    destruct (persisted w) as [[d|raw]|]; [| done |];
      rewrite !stored_field_write_state;
      split; apply updated_state_lookup.
  - intros unread total awaiting avg dormant action volume busy w.
    destruct (calculate_pet_stats _) as [[h p] e] eqn:E.
    rewrite (update_run _ _ _ _ _ _ _ _ w _ _ _ E).
    destruct (persisted w) as [[d|raw]|]; [| done |];
      eexists _, _; (split; [reflexivity|]);
      rewrite !stored_field_write_state;
      split; apply updated_state_lookup.
Qed.

(** ** The invariant of produced states *)

Lemma pet_invariant_intro (state : gmap string value) (h p e : Z) :
  state !! "health" = Some (VInt h) →
  state !! "happiness" = Some (VInt p) →
  state !! "energy" = Some (VInt e) →
  state !! "status" = Some (VStr (classify (mean3 h p e)).1) →
  state !! "mood_emoji" = Some (VStr (classify (mean3 h p e)).2) →
  0 <= h <= 100 → 0 <= p <= 100 → 0 <= e <= 100 →
  pet_invariant state.
Proof.
  intros Hh Hp He Hs Hm Rh Rp Re.
  exists h, p, e, (classify (mean3 h p e)).1, (classify (mean3 h p e)).2.
  split_and!; try done; try lia.
  all: destruct (classify_iff (mean3 h p e)) as (I1 & I2 & I3).
  all: destruct (classify (mean3 h p e)) as [st mood]; cbn.
  - rewrite <- I1. split; [by intros [= -> ->] | by intros [-> ->]].
  - rewrite <- I2. split; [by intros [= -> ->] | by intros [-> ->]].
  - rewrite <- I3. split; [by intros [= -> ->] | by intros [-> ->]].
Qed.

Lemma default_state_invariant (now : string) : pet_invariant (default_state now).
Proof. by apply (pet_invariant_intro _ 75 75 75). Qed.

Lemma updated_state_invariant (d : gmap string value) (h p e : Z) (now : string) :
  0 <= h <= 100 → 0 <= p <= 100 → 0 <= e <= 100 →
  pet_invariant (updated_state d h p e now).
Proof.
  intros Rh Rp Re.
  destruct (updated_state_lookup d h p e now) as (? & ? & ? & ? & ? & ?).
  by apply (pet_invariant_intro _ h p e).
Qed.

(** C2: every pet state the program produces satisfies the invariant
    (scores in [0,100]; "thriving" with the happy symbol exactly when the
    mean is at least 80, "okay" with the neutral symbol exactly when it is
    in [50,80), "struggling" with the dizzy symbol exactly when it is below
    50): the default state that [load_pet_state] returns when the file is
    absent, and the state the update tool writes whenever it returns. *)
Theorem produced_states_consistent :
  (∀ w : World,
     persisted w = None →
     ∃ state, (load_pet_state w).1 = Ok state ∧ pet_invariant state) ∧
  (∀ (unread total awaiting : Z) (avg : pyfloat) (dormant action volume : Z)
     (busy : bool) (w : World),
     match update_pet_from_email_data
             unread total awaiting avg dormant action volume busy w with
     | (Ok _, w') =>
         ∃ state, persisted w' = Some (Document state) ∧ pet_invariant state
     | (Raise _, w') => w' = w
     end).
Proof.
  split.
  - intros w Hw. rewrite (load_absent _ Hw). eexists. split; [done|].
    apply default_state_invariant.
  - intros unread total awaiting avg dormant action volume busy w.
    destruct (calculate_pet_stats
                (email_stats_of unread total awaiting avg dormant action
                   volume busy)) as [[h p] e] eqn:E.
    rewrite (update_run _ _ _ _ _ _ _ _ w _ _ _ E).
    destruct (calculate_pet_stats_range _ _ _ _ E) as (Rh & Rp & Re).
    destruct (persisted w) as [[d|raw]|]; [| done |];
      (eexists; split; [apply persisted_write_state|]);
      by apply updated_state_invariant.
Qed.

Lemma produced_states_consistent_witness :
  persisted empty_world = None ∧
  ∃ state, (load_pet_state empty_world).1 = Ok state ∧ pet_invariant state.
Proof.
  split; [reflexivity|].
  destruct produced_states_consistent as [Hload _].
  apply (Hload empty_world). reflexivity.
Defined.

(** ** The status tool *)

Lemma bind_lift {A B : Type} (r : Result A) (k : A → M B) (w : World) :
  bind (lift r) k w =
  match r with
  | Ok a => k a w
  | Raise e => (Raise e, w)
  end.
Proof. unfold bind, lift. by destruct r. Qed.

(** The status tool neither writes nor reads the clock when the state
    file exists. *)
Lemma check_pet_status_present (w : World) :
  persisted w ≠ None → (check_pet_status w).2 = w.
Proof.
  intros Hw. unfold check_pet_status. unfold bind at 1.
  destruct (persisted w) as [[d|raw]|] eqn:Ew; [| |done].
  - rewrite (load_document _ _ Ew). rewrite bind_lift.
    match goal with |- context [match ?r with Ok _ => _ | Raise _ => _ end] =>
      destruct r; [|done] end.
    rewrite bind_lift.
    match goal with |- context [match ?r with Ok _ => _ | Raise _ => _ end] =>
      destruct r; [|done] end.
    done.
  - by rewrite (load_garbled _ _ Ew).
Qed.

Lemma check_pet_status_absent (w : World) :
  persisted w = None →
  check_pet_status w =
    (Ok (default_report (clock w (ticks w))),
     mkWorld (files w) (clock w) (S (ticks w))).
Proof.
  intros Hw. unfold check_pet_status. unfold bind at 1.
  rewrite (load_absent _ Hw). generalize (clock w (ticks w)) as now.
  intros now. rewrite !bind_lift. vm_compute. reflexivity.
Qed.

Lemma append_cancel_l (a s t : string) : a +:+ s = a +:+ t → s = t.
Proof. induction a as [|c a IH]; cbn; [done|]. intros [= H]. by apply IH. Qed.

Lemma append_nl_cancel (s t : string) : s +:+ nl = t +:+ nl → s = t.
Proof.
  revert t. induction s as [|a s IH]; intros [|b t]; cbn; intros H.
  - done.
  - injection H as _ H. by destruct t.
  - injection H as _ H. by destruct s.
  - injection H as -> H. f_equal. by apply IH.
Qed.

Lemma default_report_inj (now1 now2 : string) :
  default_report now1 = default_report now2 → now1 = now2.
Proof.
  unfold default_report. intros H.
  repeat apply append_cancel_l in H.
  by apply append_nl_cancel.
Qed.

(** C7, as the code has it: two calls of the status tool with no update in
    between.  When the state file exists they return the same result,
    with the same last_updated line, and leave the world as it was.  When
    it is absent each call reports the default state stamped with its own
    clock reading and writes nothing, so the two results are the same
    exactly when the two readings are. *)
Theorem status_twice (w : World) :
  let '(r1, w1) := check_pet_status w in
  let '(r2, w2) := check_pet_status w1 in
  (persisted w ≠ None → r1 = r2 ∧ w1 = w ∧ w2 = w) ∧
  (persisted w = None →
     r1 = Ok (default_report (clock w (ticks w))) ∧
     r2 = Ok (default_report (clock w (S (ticks w)))) ∧
     (r1 = r2 ↔ clock w (ticks w) = clock w (S (ticks w))) ∧
     files w2 = files w).
Proof.
  destruct (persisted w) as [f|] eqn:Ew.
  - assert (persisted w ≠ None) as Hw by congruence.
    pose proof (check_pet_status_present w Hw) as H1.
    destruct (check_pet_status w) as [r1 w1] eqn:E1. cbn in H1. subst w1.
    rewrite E1. by split.
  - rewrite (check_pet_status_absent _ Ew).
    rewrite check_pet_status_absent by done. cbn [ticks clock files].
    split; [done|]. intros _. split_and!; try done.
    split; [|by intros ->].
    intros H. apply default_report_inj. congruence.
Qed.

Lemma status_twice_witness :
  let w := world_with (default_state "2024-12-31T08:00:00.000000") in
  persisted w ≠ None ∧
  (check_pet_status w).1 = (check_pet_status (check_pet_status w).2).1 ∧
  (check_pet_status w).2 = w.
Proof.
  cbv zeta.
  pose proof (status_twice
                (world_with (default_state "2024-12-31T08:00:00.000000")))
    as H.
  destruct (check_pet_status
              (world_with (default_state "2024-12-31T08:00:00.000000")))
    as [r1 w1].
  destruct (check_pet_status w1) as [r2 w2] eqn:E2.
  destruct H as [H _].
  assert (persisted (world_with (default_state "2024-12-31T08:00:00.000000"))
          ≠ None) as Hw by (vm_compute; discriminate).
  destruct (H Hw) as (Hr & H1 & H2).
  split; [exact Hw|]. cbn. subst w1. rewrite E2. done.
Defined.

(** C7 as stated fails when the state file is absent: each call builds the
    default state anew and stamps it with its own clock reading, so with
    readings five seconds apart the two reports differ in their last
    line. *)
Lemma status_twice_differs_when_absent :
  persisted empty_world = None ∧
  (check_pet_status empty_world).1
  ≠ (check_pet_status (check_pet_status empty_world).2).1.
Proof.
  split; [reflexivity|].
  vm_compute. intros H. discriminate H.
Qed.

(** ** The advice tool *)

Lemma advice_lines_scores (d : gmap string value) (h p e : Z) :
  d !! "health" = Some (VInt h) →
  d !! "happiness" = Some (VInt p) →
  d !! "energy" = Some (VInt e) →
  advice_lines d =
  Ok (match (if h <? 70 then [tip_health] else [])
            ++ (if p <? 70 then [tip_happiness] else [])
            ++ (if e <? 70 then [tip_energy] else []) with
      | [] => [congratulation]
      | l => l
      end)%list.
Proof.
  intros Hh Hp He. unfold advice_lines, getitem. rewrite Hh, Hp, He. cbn.
  by destruct (h <? 70), (p <? 70), (e <? 70).
Qed.

Lemma get_pet_advice_document (w : World) (d : gmap string value) :
  persisted w = Some (Document d) →
  get_pet_advice w =
  match advice_lines d with
  | Ok advice => (Ok (join nl advice), w)
  | Raise e => (Raise e, w)
  end.
Proof.
  intros Hw. unfold get_pet_advice. unfold bind at 1.
  rewrite (load_document _ _ Hw). by rewrite bind_lift.
Qed.

(** C10: the advice tool checks three independent conditions.  On a
    persisted state with integer scores, the health tip is given exactly
    when health < 70, the inbox-zero tip exactly when happiness < 70, the
    take-breaks tip exactly when energy < 70, and the congratulation
    exactly when none of the three applies; the lines come in the fixed
    order health, happiness, energy, joined by newlines.  For scores
    (60, 60, 60) the result is the three tips in that order, without the
    congratulation. *)
Theorem advice_checklist :
  (∀ (w : World) (d : gmap string value) (h p e : Z),
     persisted w = Some (Document d) →
     d !! "health" = Some (VInt h) →
     d !! "happiness" = Some (VInt p) →
     d !! "energy" = Some (VInt e) →
     ∃ lines : list string,
       get_pet_advice w = (Ok (join nl lines), w) ∧
       (tip_health ∈ lines ↔ h < 70) ∧
       (tip_happiness ∈ lines ↔ p < 70) ∧
       (tip_energy ∈ lines ↔ e < 70) ∧
       (congratulation ∈ lines ↔ 70 <= h ∧ 70 <= p ∧ 70 <= e) ∧
       (congratulation ∈ lines → lines = [congratulation]) ∧
       sublist lines [tip_health; tip_happiness; tip_energy; congratulation]) ∧
  (∀ (w : World) (d : gmap string value),
     persisted w = Some (Document d) →
     d !! "health" = Some (VInt 60) →
     d !! "happiness" = Some (VInt 60) →
     d !! "energy" = Some (VInt 60) →
     get_pet_advice w =
       (Ok (tip_health +:+ nl +:+ tip_happiness +:+ nl +:+ tip_energy), w)).
Proof.
  split.
  - intros w d h p e Hw Hh Hp He.
    rewrite (get_pet_advice_document _ _ Hw).
    rewrite (advice_lines_scores _ _ _ _ Hh Hp He).
    eexists. split; [reflexivity|].
    destruct (Z.ltb_spec h 70) as [Lh|Lh], (Z.ltb_spec p 70) as [Lp|Lp],
      (Z.ltb_spec e 70) as [Le|Le]; cbn [app].
    all: split_and!;
      first [ split; [intros _; lia | intros _; in_lines]
            | split; [intros Hin; not_in_lines Hin | intros; lia]
            | intros Hin; first [reflexivity | not_in_lines Hin]
            | subsequence ].
  - intros w d Hw Hh Hp He.
    rewrite (get_pet_advice_document _ _ Hw).
    by rewrite (advice_lines_scores _ _ _ _ Hh Hp He).
Qed.

Lemma advice_checklist_witness :
  persisted (world_with state_60) = Some (Document state_60) ∧
  state_60 !! "health" = Some (VInt 60) ∧
  state_60 !! "happiness" = Some (VInt 60) ∧
  state_60 !! "energy" = Some (VInt 60) ∧
  get_pet_advice (world_with state_60) =
    (Ok (tip_health +:+ nl +:+ tip_happiness +:+ nl +:+ tip_energy),
     world_with state_60).
Proof.
  do 4 (split; [reflexivity|]).
  destruct advice_checklist as [_ H60].
  apply (H60 (world_with state_60) state_60); reflexivity.
Defined.

(** * Further properties of the code *)

(** ** Scores *)

(** X1: every score that [calculate_pet_stats] returns is a multiple of 5:
    the base, every adjustment and both clamp bounds are. *)
Theorem scores_multiples_of_5 (email_stats : EmailStats) :
  let '(health, happiness, energy) := calculate_pet_stats email_stats in
  health mod 5 = 0 ∧ happiness mod 5 = 0 ∧ energy mod 5 = 0.
Proof.
  unfold calculate_pet_stats, clamp. cbv zeta.
  split_and!; split_tests; Z.div_mod_to_equations; lia.
Qed.

(** X2: whatever the input, happiness and energy lie between 35 and 75:
    their adjustments add up to at least -15 and at most +25, so the final
    clamp never changes them.  Only health can reach 0 or 100. *)
Theorem happiness_energy_between_35_and_75 (email_stats : EmailStats) :
  let '(_, happiness, energy) := calculate_pet_stats email_stats in
  (35 <= happiness <= 75) ∧ (35 <= energy <= 75).
Proof.
  unfold calculate_pet_stats, clamp. cbv zeta.
  split; split_tests; lia.
Qed.

(** X3: health never grows with the number of dormant threads, all other
    arguments equal, and from five dormant threads on it is 0. *)
Theorem health_falls_with_dormant_threads
    (unread total awaiting : Z) (avg : pyfloat)
    (dormant dormant' action volume : Z) (busy : bool) :
  dormant <= dormant' →
  let health (d : Z) :=
    (calculate_pet_stats
       (email_stats_of unread total awaiting avg d action volume busy)).1.1 in
  health dormant' <= health dormant ∧
  (5 <= dormant → health dormant = 0).
Proof.
  intros Hd. unfold calculate_pet_stats, clamp. cbn.
  split; [|intros H5]; split_tests; lia.
Qed.

Lemma health_falls_with_dormant_threads_witness :
  5 <= 6 ∧
  let health (d : Z) :=
    (calculate_pet_stats
       (email_stats_of 0 0 0 (Finite (24 # 1)) d 50 10 false)).1.1 in
  health 6 <= health 5 ∧ (5 <= 5 → health 5 = 0).
Proof.
  split; [lia|].
  apply (health_falls_with_dormant_threads
           0 0 0 (Finite (24 # 1)) 5 6 50 10 false).
  lia.
Defined.

(** ** Presentation *)

Lemma ascii_art_ints (h p e : Z) :
  Z.abs (h + p + e) < 3 * float_overflow_bound →
  get_pet_ascii_art (VInt h) (VInt p) (VInt e) =
  Ok (if float_ge (mean3 h p e) 80 then art_happy
      else if float_ge (mean3 h p e) 50 then art_neutral
      else art_sad).
Proof.
  intros Hb. unfold get_pet_ascii_art, py_add, rbind, py_truediv, int_truediv.
  destruct (Z.leb_spec (3 * float_overflow_bound) (Z.abs (h + p + e))); [lia|].
  fold (mean3 h p e).
  by destruct (float_ge (mean3 h p e) 80), (float_ge (mean3 h p e) 50).
Qed.

(** X4: on integer scores whose mean fits a double, the glyph of the
    status tool follows the same bands as the status the update tool
    stores: the happy glyph exactly for "thriving", the neutral one
    exactly for "okay", the dizzy one exactly for "struggling", and the
    glyph ends with the mood symbol of that band. *)
Theorem glyph_follows_classification (h p e : Z) :
  Z.abs (h + p + e) < 3 * float_overflow_bound →
  ∃ art body : string,
    get_pet_ascii_art (VInt h) (VInt p) (VInt e) = Ok art ∧
    art = body +:+ (classify (mean3 h p e)).2 ∧
    (art = art_happy ↔ (classify (mean3 h p e)).1 = "thriving") ∧
    (art = art_neutral ↔ (classify (mean3 h p e)).1 = "okay") ∧
    (art = art_sad ↔ (classify (mean3 h p e)).1 = "struggling").
Proof.
  intros Hb. rewrite (ascii_art_ints _ _ _ Hb). unfold classify.
  destruct (float_ge (mean3 h p e) 80); [|destruct (float_ge (mean3 h p e) 50)].
  - exists art_happy,
      (join nl [ "    ◕   ◕"; "      ω"; "   \_____/"; "    |  |  |"; "     " ]).
    split_and!; try reflexivity; split; intros H; by vm_compute in H.
  - exists art_neutral,
      (join nl [ "    ◔   ◔"; "      ︶"; "   \_____/"; "    |  |  |"; "     " ]).
    split_and!; try reflexivity; split; intros H; by vm_compute in H.
  - exists art_sad,
      (join nl [ "    ×   ×"; "      ︵"; "   \_____/"; "    |  |  |"; "     " ]).
    split_and!; try reflexivity; split; intros H; by vm_compute in H.
Qed.

Lemma glyph_follows_classification_witness :
  Z.abs (75 + 75 + 75) < 3 * float_overflow_bound ∧
  ∃ art body : string,
    get_pet_ascii_art (VInt 75) (VInt 75) (VInt 75) = Ok art ∧
    art = body +:+ (classify (mean3 75 75 75)).2 ∧
    (art = art_happy ↔ (classify (mean3 75 75 75)).1 = "thriving") ∧
    (art = art_neutral ↔ (classify (mean3 75 75 75)).1 = "okay") ∧
    (art = art_sad ↔ (classify (mean3 75 75 75)).1 = "struggling").
Proof.
  split; [reflexivity|].
  apply (glyph_follows_classification 75 75 75). reflexivity.
Defined.

Lemma status_message_ints (h p e : Z) :
  get_status_message (VInt h) (VInt p) (VInt e) =
  Ok (join " | "
        ((if 80 <=? h then msg_responsive
          else if 50 <=? h then msg_attention else msg_drowning)
         :: ((if 80 <=? p then [msg_organized] else [])
             ++ (if e <? 50 then [msg_exhausted] else []))%list)).
Proof.
  unfold get_status_message, py_ge, py_lt, rbind, append.
  rewrite !Z.geb_leb.
  by destruct (80 <=? h), (50 <=? h), (80 <=? p), (e <? 50).
Qed.

(** X5: on integer scores the status message is a pipe-joined list that
    always starts with exactly one health line (responsive from 80,
    attention from 50 to 79, drowning below 50), followed by the
    organization praise exactly when happiness is at least 80 and then by
    the exhaustion line exactly when energy is below 50. *)
Theorem status_message_lines (h p e : Z) :
  ∃ (health_line : string) (rest : list string),
    get_status_message (VInt h) (VInt p) (VInt e)
    = Ok (join " | " (health_line :: rest)) ∧
    (health_line = msg_responsive ↔ 80 <= h) ∧
    (health_line = msg_attention ↔ 50 <= h < 80) ∧
    (health_line = msg_drowning ↔ h < 50) ∧
    (msg_organized ∈ rest ↔ 80 <= p) ∧
    (msg_exhausted ∈ rest ↔ e < 50) ∧
    sublist rest [msg_organized; msg_exhausted].
Proof.
  rewrite status_message_ints. eexists _, _. split; [reflexivity|].
  destruct (Z.leb_spec 80 h) as [Lh|Lh];
    [|destruct (Z.leb_spec 50 h) as [Lh'|Lh']];
    destruct (Z.leb_spec 80 p) as [Lp|Lp], (Z.ltb_spec e 50) as [Le|Le];
    cbn [app].
  all: split_and!;
    first [ split; [intros _; lia | intros _; first [reflexivity | in_lines]]
          | split; [intros Hin; first [by vm_compute in Hin | not_in_lines Hin]
                   | intros; lia]
          | solve [subsequence] ].
Qed.

(** ** Errors of the read-only tools *)

Lemma check_pet_status_document (w : World) (d : gmap string value) :
  persisted w = Some (Document d) →
  check_pet_status w =
  match (h <~ getitem d "health" ;; p <~ getitem d "happiness" ;;
         e <~ getitem d "energy" ;; get_pet_ascii_art h p e) with
  | Raise x => (Raise x, w)
  | Ok ascii_art =>
    match (h <~ getitem d "health" ;; p <~ getitem d "happiness" ;;
           e <~ getitem d "energy" ;; get_status_message h p e) with
    | Raise x => (Raise x, w)
    | Ok status_msg =>
      (name <~ getitem d "name" ;;
       h <~ getitem d "health" ;;
       p <~ getitem d "happiness" ;;
       e <~ getitem d "energy" ;;
       last_updated <~ getitem d "last_updated" ;;
       Ok (nl +:+ "🐾 " +:+ py_str name +:+ " Status 🐾" +:+ nl
           +:+ nl
           +:+ ascii_art +:+ nl
           +:+ nl
           +:+ "Health: " +:+ py_str h +:+ "/100 ❤️" +:+ nl
           +:+ "Happiness: " +:+ py_str p +:+ "/100 😊" +:+ nl
           +:+ "Energy: " +:+ py_str e +:+ "/100 ⚡" +:+ nl
           +:+ nl
           +:+ status_msg +:+ nl
           +:+ nl
           +:+ "Last updated: " +:+ py_str last_updated +:+ nl), w)
    end
  end.
Proof.
  intros Hw. unfold check_pet_status. unfold bind at 1.
  rewrite (load_document _ _ Hw). rewrite bind_lift.
  match goal with |- context [match ?r with Ok _ => _ | Raise _ => _ end] =>
    destruct r; [|done] end.
  rewrite bind_lift.
  match goal with |- context [match ?r with Ok _ => _ | Raise _ => _ end] =>
    destruct r; [|done] end.
  done.
Qed.

(** X6: when the three score keys are present but one of them holds a
    string, the status tool and the advice tool both raise [TypeError] and
    leave the world as it was. *)
Theorem str_score_raises_TypeError
    (w : World) (d : gmap string value) (a b c : value) :
  persisted w = Some (Document d) →
  d !! "health" = Some a →
  d !! "happiness" = Some b →
  d !! "energy" = Some c →
  (∃ s, a = VStr s) ∨ (∃ s, b = VStr s) ∨ (∃ s, c = VStr s) →
  check_pet_status w = (Raise TypeError, w) ∧
  get_pet_advice w = (Raise TypeError, w).
Proof.
  intros Hw Ha Hb Hc Hstr.
  rewrite (check_pet_status_document _ _ Hw), (get_pet_advice_document _ _ Hw).
  unfold advice_lines, getitem. rewrite Ha, Hb, Hc.
  destruct a as [x|s], b as [y|t], c as [z|u]; try done.
  destruct Hstr as [[? [=]]|[[? [=]]|[? [=]]]].
Qed.

Lemma str_score_raises_TypeError_witness :
  let d := <["health" := VStr "75"]> (default_state "2024-12-31T08:00:00.000000") in
  persisted (world_with d) = Some (Document d) ∧
  check_pet_status (world_with d) = (Raise TypeError, world_with d) ∧
  get_pet_advice (world_with d) = (Raise TypeError, world_with d).
Proof.
  cbv zeta. split; [reflexivity|].
  apply (str_score_raises_TypeError
           (world_with (<["health" := VStr "75"]>
                          (default_state "2024-12-31T08:00:00.000000")))
           (<["health" := VStr "75"]>
              (default_state "2024-12-31T08:00:00.000000"))
           (VStr "75") (VInt 75) (VInt 75));
    [reflexivity | reflexivity | reflexivity | reflexivity |].
  left. by eexists.
Defined.

(** X7: on a document that lacks a score key, the status tool and the
    advice tool raise [KeyError] for the first missing key in the order
    health, happiness, energy, and leave the world as it was.  The status
    tool subscripts all three scores before it computes with them and the
    advice tool compares each score as it reads it, so on a string health
    with happiness missing the former raises [KeyError] and the latter
    [TypeError].  With integer scores and no name only the status tool
    raises. *)
Theorem missing_key_raises_KeyError (w : World) (d : gmap string value) :
  persisted w = Some (Document d) →
  (d !! "health" = None →
     check_pet_status w = (Raise (KeyError "health"), w) ∧
     get_pet_advice w = (Raise (KeyError "health"), w)) ∧
  (∀ h, d !! "health" = Some (VInt h) → d !! "happiness" = None →
     check_pet_status w = (Raise (KeyError "happiness"), w) ∧
     get_pet_advice w = (Raise (KeyError "happiness"), w)) ∧
  (∀ h p, d !! "health" = Some (VInt h) → d !! "happiness" = Some (VInt p) →
     d !! "energy" = None →
     check_pet_status w = (Raise (KeyError "energy"), w) ∧
     get_pet_advice w = (Raise (KeyError "energy"), w)) ∧
  (∀ s, d !! "health" = Some (VStr s) → d !! "happiness" = None →
     check_pet_status w = (Raise (KeyError "happiness"), w) ∧
     get_pet_advice w = (Raise TypeError, w)) ∧
  (∀ h p e, d !! "health" = Some (VInt h) → d !! "happiness" = Some (VInt p) →
     d !! "energy" = Some (VInt e) →
     Z.abs (h + p + e) < 3 * float_overflow_bound →
     d !! "name" = None →
     check_pet_status w = (Raise (KeyError "name"), w) ∧
     ∃ text, get_pet_advice w = (Ok text, w)).
Proof.
  intros Hw.
  rewrite (check_pet_status_document _ _ Hw), (get_pet_advice_document _ _ Hw).
  unfold advice_lines, getitem. split_and!.
  - by intros ->.
  - by intros h -> ->.
  - by intros h p -> -> ->.
  - by intros s -> ->.
  - intros h p e -> -> -> Hb ->. cbn [rbind].
    rewrite (ascii_art_ints _ _ _ Hb), status_message_ints.
    split; [done|]. by eexists.
Qed.

Lemma missing_key_raises_KeyError_witness :
  persisted (world_with ∅) = Some (Document ∅) ∧
  check_pet_status (world_with ∅) = (Raise (KeyError "health"), world_with ∅) ∧
  get_pet_advice (world_with ∅) = (Raise (KeyError "health"), world_with ∅).
Proof.
  split; [reflexivity|].
  destruct (missing_key_raises_KeyError (world_with ∅) ∅) as [H _];
    [reflexivity|].
  apply H. reflexivity.
Defined.

(** ** Effects of the tools on the world *)

Lemma check_pet_status_world (w : World) :
  (check_pet_status w).2 = (load_pet_state w).2.
Proof.
  unfold check_pet_status. unfold bind at 1.
  destruct (load_pet_state w) as [[d|x] w1]; [|done].
  rewrite bind_lift.
  match goal with |- context [match ?r with Ok _ => _ | Raise _ => _ end] =>
    destruct r; [|done] end.
  rewrite bind_lift.
  match goal with |- context [match ?r with Ok _ => _ | Raise _ => _ end] =>
    destruct r; [|done] end.
  done.
Qed.

Lemma get_pet_advice_world (w : World) :
  (get_pet_advice w).2 = (load_pet_state w).2.
Proof.
  unfold get_pet_advice. unfold bind at 1.
  destruct (load_pet_state w) as [[d|x] w1]; [|done].
  rewrite bind_lift. by destruct (advice_lines d).
Qed.

Lemma load_pet_state_world (w : World) :
  (load_pet_state w).2
  = mkWorld (files w) (clock w)
      (match persisted w with None => S (ticks w) | Some _ => ticks w end).
Proof.
  destruct w as [fs ck n].
  destruct (persisted (mkWorld fs ck n)) as [[d|raw]|] eqn:Ew.
  - by rewrite (load_document _ _ Ew).
  - by rewrite (load_garbled _ _ Ew).
  - by rewrite (load_absent _ Ew).
Qed.

(** X8: the status tool and the advice tool never write: whatever the
    state file holds, and whether they return or raise, every file is as
    before, the state file included; the only trace they leave is the one
    clock reading made for the default state when the state file is
    absent. *)
Theorem read_only_tools_write_nothing (w : World) :
  let after_load :=
    mkWorld (files w) (clock w)
      (match persisted w with None => S (ticks w) | Some _ => ticks w end) in
  (check_pet_status w).2 = after_load ∧
  (get_pet_advice w).2 = after_load ∧
  files (check_pet_status w).2 = files w ∧
  files (get_pet_advice w).2 = files w.
Proof.
  cbv zeta.
  rewrite check_pet_status_world, get_pet_advice_world, load_pet_state_world.
  done.
Qed.

(** X9: the update tool touches no file but the state file, and leaves
    the clock's future readings as they were, for every input and every
    world, whether it returns or raises. *)
Theorem update_touches_only_state_file
    (unread total awaiting : Z) (avg : pyfloat)
    (dormant action volume : Z) (busy : bool) (w : World) :
  let w' := (update_pet_from_email_data
               unread total awaiting avg dormant action volume busy w).2 in
  delete PET_STATE_FILE (files w') = delete PET_STATE_FILE (files w) ∧
  clock w' = clock w ∧
  (ticks w <= ticks w')%nat.
Proof.
  cbv zeta.
  destruct (calculate_pet_stats
              (email_stats_of unread total awaiting avg dormant action
                 volume busy)) as [[h p] e] eqn:E.
  rewrite (update_run _ _ _ _ _ _ _ _ w _ _ _ E).
  destruct (persisted w) as [[d|raw]|]; cbn; split_and!; try done; try lia.
  all: apply delete_insert_eq.
Qed.



(** X11: when the state file is absent the update tool creates it.  The
    new record has exactly the seven keys of a pet state, the name
    "Pokagotchi" of the default state and the new scores; the clock is
    read twice, and last_updated is the second reading (the first went
    into the default state and is overwritten). *)
Theorem update_creates_state_when_absent
    (unread total awaiting : Z) (avg : pyfloat)
    (dormant action volume : Z) (busy : bool) (w : World) :
  persisted w = None →
  let '(h, p, e) :=
    calculate_pet_stats
      (email_stats_of unread total awaiting avg dormant action volume busy) in
  ∃ (msg : string) (w' : World) (d' : gmap string value),
    update_pet_from_email_data
      unread total awaiting avg dormant action volume busy w = (Ok msg, w') ∧
    persisted w' = Some (Document d') ∧
    dom d' = list_to_set
               [ "name"; "health"; "happiness"; "energy"; "last_updated";
                 "status"; "mood_emoji" ] ∧
    d' !! "name" = Some (VStr "Pokagotchi") ∧
    d' !! "health" = Some (VInt h) ∧
    d' !! "happiness" = Some (VInt p) ∧
    d' !! "energy" = Some (VInt e) ∧
    d' !! "last_updated" = Some (VStr (clock w (S (ticks w)))) ∧
    ticks w' = S (S (ticks w)).
Proof.
  intros Hw.
  destruct (calculate_pet_stats _) as [[h p] e] eqn:E.
  rewrite (update_run _ _ _ _ _ _ _ _ w _ _ _ E), Hw.
  eexists _, _, _. split; [reflexivity|].
  split; [apply persisted_write_state|].
  destruct (updated_state_lookup (default_state (clock w (ticks w))) h p e
              (clock w (S (ticks w)))) as (? & ? & ? & ? & ? & ?).
  by split_and!.
Qed.

Lemma update_creates_state_when_absent_witness :
  persisted empty_world = None ∧
  ∃ (msg : string) (w' : World) (d' : gmap string value),
    update_pet_from_email_data 0 0 0 (Finite (24 # 1)) 0 50 10 false empty_world
    = (Ok msg, w') ∧
    persisted w' = Some (Document d') ∧
    dom d' = list_to_set
               [ "name"; "health"; "happiness"; "energy"; "last_updated";
                 "status"; "mood_emoji" ] ∧
    d' !! "name" = Some (VStr "Pokagotchi") ∧
    d' !! "health" = Some (VInt 65) ∧
    d' !! "happiness" = Some (VInt 75) ∧
    d' !! "energy" = Some (VInt 50) ∧
    d' !! "last_updated" = Some (VStr "2025-01-01T09:00:05.000000") ∧
    ticks w' = 2%nat.
Proof.
  split; [reflexivity|].
  apply (update_creates_state_when_absent
           0 0 0 (Finite (24 # 1)) 0 50 10 false empty_world).
  reflexivity.
Defined.

(** ** Successive calls *)

Lemma updated_state_twice
    (d : gmap string value) (h1 p1 e1 h2 p2 e2 : Z) (now1 now2 now key : string) :
  key ≠ "last_updated" →
  updated_state (updated_state d h1 p1 e1 now1) h2 p2 e2 now2 !! key
  = updated_state d h2 p2 e2 now !! key.
Proof.
  intros Hk. unfold updated_state. rewrite !lookup_insert.
  repeat case_decide; congruence.
Qed.

(** X12: the last update wins.  After two updates in a row the persisted
    record is, in every key except last_updated, the one the second update
    alone would have left: the scores, status and mood symbol of the first
    call leave no trace, and the keys no update assigns keep their
    values. *)
Theorem last_update_wins
    (unread1 total1 awaiting1 : Z) (avg1 : pyfloat)
    (dormant1 action1 volume1 : Z) (busy1 : bool)
    (unread2 total2 awaiting2 : Z) (avg2 : pyfloat)
    (dormant2 action2 volume2 : Z) (busy2 : bool)
    (w : World) (key : string) :
  key ≠ "last_updated" →
  let first :=
    update_pet_from_email_data
      unread1 total1 awaiting1 avg1 dormant1 action1 volume1 busy1 in
  let second :=
    update_pet_from_email_data
      unread2 total2 awaiting2 avg2 dormant2 action2 volume2 busy2 in
  stored_field (second (first w).2).2 key = stored_field (second w).2 key.
Proof.
  intros Hk. cbv zeta.
  destruct (calculate_pet_stats
              (email_stats_of unread1 total1 awaiting1 avg1 dormant1 action1
                 volume1 busy1)) as [[h1 p1] e1] eqn:E1.
  destruct (calculate_pet_stats
              (email_stats_of unread2 total2 awaiting2 avg2 dormant2 action2
                 volume2 busy2)) as [[h2 p2] e2] eqn:E2.
  rewrite (update_run _ _ _ _ _ _ _ _ w _ _ _ E1).
  rewrite (update_run _ _ _ _ _ _ _ _ w _ _ _ E2).
  destruct (persisted w) as [[d|raw]|] eqn:Ew; cbn [snd].
  - rewrite (update_run _ _ _ _ _ _ _ _ _ _ _ _ E2), persisted_write_state.
    cbn [snd]. rewrite !stored_field_write_state.
    by apply updated_state_twice.
  - rewrite (update_run _ _ _ _ _ _ _ _ w _ _ _ E2), Ew. done.
  - rewrite (update_run _ _ _ _ _ _ _ _ _ _ _ _ E2), persisted_write_state.
    cbn [snd]. rewrite !stored_field_write_state.
    by apply updated_state_twice.
Qed.

Lemma last_update_wins_witness :
  "health" ≠ "last_updated" ∧
  stored_field
    (update_pet_from_email_data 0 0 0 (Finite (24 # 1)) 0 50 10 false
       (update_pet_from_email_data 60 300 12 (Finite (24 # 1)) 2 80 40 true
          empty_world).2).2 "health"
  = stored_field
      (update_pet_from_email_data 0 0 0 (Finite (24 # 1)) 0 50 10 false
         empty_world).2 "health".
Proof.
  split; [discriminate|].
  apply (last_update_wins 60 300 12 (Finite (24 # 1)) 2 80 40 true
           0 0 0 (Finite (24 # 1)) 0 50 10 false empty_world "health").
  discriminate.
Defined.

Lemma advice_lines_membership (h p e : Z) :
  let lines :=
    match ((if h <? 70 then [tip_health] else [])
           ++ (if p <? 70 then [tip_happiness] else [])
           ++ (if e <? 70 then [tip_energy] else []))%list with
    | [] => [congratulation]
    | l => l
    end in
  (tip_health ∈ lines ↔ h < 70) ∧
  (tip_happiness ∈ lines ↔ p < 70) ∧
  (tip_energy ∈ lines ↔ e < 70) ∧
  (congratulation ∈ lines ↔ 70 <= h ∧ 70 <= p ∧ 70 <= e).
Proof.
  cbv zeta.
  destruct (Z.ltb_spec h 70) as [Lh|Lh], (Z.ltb_spec p 70) as [Lp|Lp],
    (Z.ltb_spec e 70) as [Le|Le]; cbn [app].
  all: split_and!;
    first [ split; [intros _; lia | intros _; in_lines]
          | split; [intros Hin; not_in_lines Hin | intros; lia] ].
Qed.

Lemma append_assoc (x y z : string) : (x +:+ y) +:+ z = x +:+ (y +:+ z).
Proof.
  induction x as [|c x IH]; [done|].
  change (String c ((x +:+ y) +:+ z) = String c (x +:+ (y +:+ z))).
  by rewrite IH.
Qed.

Lemma check_pet_status_scores
    (w : World) (d : gmap string value) (name last : value) (h p e : Z) :
  persisted w = Some (Document d) →
  d !! "name" = Some name →
  d !! "health" = Some (VInt h) →
  d !! "happiness" = Some (VInt p) →
  d !! "energy" = Some (VInt e) →
  d !! "last_updated" = Some last →
  Z.abs (h + p + e) < 3 * float_overflow_bound →
  ∃ art status_msg : string,
    get_pet_ascii_art (VInt h) (VInt p) (VInt e) = Ok art ∧
    get_status_message (VInt h) (VInt p) (VInt e) = Ok status_msg ∧
    check_pet_status w =
      (Ok ((nl +:+ "🐾 " +:+ py_str name +:+ " Status 🐾" +:+ nl +:+ nl)
           +:+ art
           +:+ (nl +:+ nl
                +:+ "Health: " +:+ pretty h +:+ "/100 ❤️" +:+ nl
                +:+ "Happiness: " +:+ pretty p +:+ "/100 😊" +:+ nl
                +:+ "Energy: " +:+ pretty e +:+ "/100 ⚡" +:+ nl
                +:+ nl
                +:+ status_msg +:+ nl
                +:+ nl
                +:+ "Last updated: " +:+ py_str last +:+ nl)), w).
Proof.
  intros Hw Hn Hh Hp He Hl Hb.
  rewrite (check_pet_status_document _ _ Hw).
  unfold getitem. rewrite Hn, Hh, Hp, He, Hl. cbn [rbind].
  rewrite (ascii_art_ints _ _ _ Hb), status_message_ints.
  eexists _, _. split_and!; try reflexivity.
  cbn [py_str]. by rewrite !append_assoc.
Qed.

(** X13: after an update that returned, the advice tool returns too, and
    its tips are those of the new scores; the status tool returns as well
    provided the record has a name (it has one when the update started
    from an absent file or from a record with a name).  Neither changes
    the world. *)
Theorem tools_succeed_after_update
    (unread total awaiting : Z) (avg : pyfloat)
    (dormant action volume : Z) (busy : bool)
    (w w' : World) (msg : string) :
  update_pet_from_email_data
    unread total awaiting avg dormant action volume busy w = (Ok msg, w') →
  let '(h, p, e) :=
    calculate_pet_stats
      (email_stats_of unread total awaiting avg dormant action volume busy) in
  (∃ lines : list string,
     get_pet_advice w' = (Ok (join nl lines), w') ∧
     (tip_health ∈ lines ↔ h < 70) ∧
     (tip_happiness ∈ lines ↔ p < 70) ∧
     (tip_energy ∈ lines ↔ e < 70) ∧
     (congratulation ∈ lines ↔ 70 <= h ∧ 70 <= p ∧ 70 <= e)) ∧
  (is_Some (stored_field w' "name") →
   ∃ text : string, check_pet_status w' = (Ok text, w')).
Proof.
  intros Hrun.
  destruct (calculate_pet_stats _) as [[h p] e] eqn:E.
  destruct (calculate_pet_stats_range _ _ _ _ E) as (Rh & Rp & Re).
  rewrite (update_run _ _ _ _ _ _ _ _ w _ _ _ E) in Hrun.
  assert (∃ d now n, w' = write_state w (updated_state d h p e now) n)
    as (d & now & n & ->).
  { destruct (persisted w) as [[d|raw]|]; [|done|];
      injection Hrun as _ <-; by eexists _, _, _. }
  clear Hrun.
  pose proof (persisted_write_state w (updated_state d h p e now) n) as Hw'.
  destruct (updated_state_lookup d h p e now) as (Hh & Hp & He & Hl & _ & _).
  split.
  - rewrite (get_pet_advice_document _ _ Hw').
    rewrite (advice_lines_scores _ _ _ _ Hh Hp He).
    eexists. split; [reflexivity|]. apply advice_lines_membership.
  - rewrite stored_field_write_state. intros [name Hn].
    pose proof float_overflow_bound_large as Hbig.
    destruct (check_pet_status_scores _ _ name (VStr now) h p e
                Hw' Hn Hh Hp He Hl) as (art & status_msg & _ & _ & ->); [lia|].
    by eexists.
Qed.

Lemma tools_succeed_after_update_witness :
  let w' := (update_pet_from_email_data 0 0 0 (Finite (24 # 1)) 0 50 10 false
               empty_world).2 in
  update_pet_from_email_data 0 0 0 (Finite (24 # 1)) 0 50 10 false empty_world
  = (Ok "Pet updated! Health: 65, Happiness: 75, Energy: 50", w') ∧
  (∃ lines : list string,
     get_pet_advice w' = (Ok (join nl lines), w') ∧
     (tip_health ∈ lines ↔ 65 < 70) ∧
     (tip_happiness ∈ lines ↔ 75 < 70) ∧
     (tip_energy ∈ lines ↔ 50 < 70) ∧
     (congratulation ∈ lines ↔ 70 <= 65 ∧ 70 <= 75 ∧ 70 <= 50)) ∧
  (is_Some (stored_field w' "name") →
   ∃ text : string, check_pet_status w' = (Ok text, w')).
Proof.
  cbv zeta. split; [vm_compute; reflexivity|].
  apply (tools_succeed_after_update 0 0 0 (Finite (24 # 1)) 0 50 10 false
           empty_world _ "Pet updated! Health: 65, Happiness: 75, Energy: 50").
  vm_compute. reflexivity.
Defined.

(** X14: on a record that satisfies the pet-state invariant and has a name
    and a last_updated value, the status tool returns a report, changes
    nothing, and the report contains the glyph of the stored status: the
    happy glyph exactly when the status is "thriving", the neutral one
    exactly when it is "okay", the dizzy one exactly when it is
    "struggling"; the glyph ends with the stored mood symbol. *)
Theorem status_report_shows_stored_mood
    (w : World) (d : gmap string value) (name last : value) :
  persisted w = Some (Document d) →
  pet_invariant d →
  d !! "name" = Some name →
  d !! "last_updated" = Some last →
  ∃ (text before art after body status mood : string),
    check_pet_status w = (Ok text, w) ∧
    text = before +:+ art +:+ after ∧
    d !! "status" = Some (VStr status) ∧
    d !! "mood_emoji" = Some (VStr mood) ∧
    art = body +:+ mood ∧
    (art = art_happy ↔ status = "thriving") ∧
    (art = art_neutral ↔ status = "okay") ∧
    (art = art_sad ↔ status = "struggling").
Proof.
  intros Hw (h & p & e & status & mood & Hh & Hp & He & Hs & Hm
             & Rh & Rp & Re & I80 & I50 & I0) Hn Hl.
  pose proof float_overflow_bound_large as Hbig.
  assert (Z.abs (h + p + e) < 3 * float_overflow_bound) as Hb by lia.
  destruct (check_pet_status_scores _ _ name last h p e Hw Hn Hh Hp He Hl Hb)
    as (art & status_msg & Hart & _ & ->).
  rewrite (ascii_art_ints _ _ _ Hb) in Hart. injection Hart as <-.
  destruct (classify_cases (mean3 h p e)) as [[H _]|[(H1 & H2 & _)|[H _]]].
  - destruct (proj1 I80 H) as [-> ->].
    apply float_ge_true in H. rewrite H.
    eexists _, _, art_happy, _,
      (join nl [ "    ◕   ◕"; "      ω"; "   \_____/"; "    |  |  |"; "     " ]),
      _, _.
    split_and!; try done; split; intros E; by vm_compute in E.
  - destruct (proj1 I50 (conj H1 H2)) as [-> ->].
    apply float_ge_true in H1. apply float_ge_false in H2. rewrite H2, H1.
    eexists _, _, art_neutral, _,
      (join nl [ "    ◔   ◔"; "      ︶"; "   \_____/"; "    |  |  |"; "     " ]),
      _, _.
    split_and!; try done; split; intros E; by vm_compute in E.
  - destruct (proj1 I0 H) as [-> ->].
    assert (mean3 h p e < inject_Z 80)%Q as H80.
    { eapply Qlt_trans; [exact H|]. reflexivity. }
    apply float_ge_false in H. apply float_ge_false in H80. rewrite H80, H.
    eexists _, _, art_sad, _,
      (join nl [ "    ×   ×"; "      ︵"; "   \_____/"; "    |  |  |"; "     " ]),
      _, _.
    split_and!; try done; split; intros E; by vm_compute in E.
Qed.

Lemma status_report_shows_stored_mood_witness :
  let d := default_state "2024-12-31T08:00:00.000000" in
  persisted (world_with d) = Some (Document d) ∧
  pet_invariant d ∧
  ∃ (text before art after body status mood : string),
    check_pet_status (world_with d) = (Ok text, world_with d) ∧
    text = before +:+ art +:+ after ∧
    d !! "status" = Some (VStr status) ∧
    d !! "mood_emoji" = Some (VStr mood) ∧
    art = body +:+ mood ∧
    (art = art_happy ↔ status = "thriving") ∧
    (art = art_neutral ↔ status = "okay") ∧
    (art = art_sad ↔ status = "struggling").
Proof.
  cbv zeta. split; [reflexivity|].
  split; [apply default_state_invariant|].
  apply (status_report_shows_stored_mood
           (world_with (default_state "2024-12-31T08:00:00.000000"))
           (default_state "2024-12-31T08:00:00.000000")
           (VStr "Pokagotchi") (VStr "2024-12-31T08:00:00.000000"));
    [reflexivity | apply default_state_invariant | reflexivity | reflexivity].
Defined.
